(** * TX Analyzer: the HTTP service of [apps/tx-analyzer/src/main.py]

    The module is a FastAPI application with four GET routes that return
    literal dictionaries, one CORS middleware and a start-up block that
    reads the listening port from the environment.

    The development has three layers:
    - Python values: JSON-like values, [os.getenv], [int];
    - the framework calls the module makes (FastAPI's constructor and route
      decorator, Starlette's router and [CORSMiddleware]), modelled as far as
      the module relies on them;
    - the module itself: [app], the four handlers and the start-up block.

    The framework is a dependency of the module, not part of it.  Its layer
    follows [starlette/routing.py], [starlette/middleware/cors.py] and
    [fastapi/applications.py] function by function, under the names used
    there, and keeps the branches that the configuration of [main.py] does
    not take.  Left out: the content of generated pages, the headers
    content-type, content-length, allow and location, websocket and lifespan
    scopes, and what [uvicorn.run] does with its arguments. *)

From Stdlib Require Import ZArith String Ascii List Bool Lia.
From stdpp Require Import base option strings gmap.
Import ListNotations.
Open Scope string_scope.

(** ** Python values *)

(** The values the handlers return: [str], [int], [list] and [dict] with
    [str] keys.  A [dict] keeps its insertion order, so it is an association
    list. *)
#[local] Set Warnings "-register-all".
Inductive json : Type :=
| JStr (s : string)
| JInt (n : Z)
| JList (items : list json)
| JDict (fields : list (string * json)).

(** [d.get(key)] on an association list: the first binding of [key]. *)
Fixpoint assoc_get (key : string) (fields : list (string * json)) : option json :=
  match fields with
  | [] => None
  | (k, v) :: rest => if String.eqb k key then Some v else assoc_get key rest
  end.

Definition dict_get (key : string) (j : json) : option json :=
  match j with
  | JDict fields => assoc_get key fields
  | _ => None
  end.

(** ** Calls as state passing

    A coroutine of the module runs against the state of the process (module
    globals, framework objects, anything a handler could read or write).  The
    state is left abstract: [Async W A] is a computation over a state of type
    [W] that returns an [A]. *)
Definition Async (W A : Type) : Type := W -> A * W.

#[export] Instance async_ret {W} : MRet (Async W) :=
  fun A (a : A) (w : W) => (a, w).
#[export] Instance async_bind {W} : MBind (Async W) :=
  fun A B (k : A -> Async W B) (m : Async W A) (w : W) =>
    let '(a, w') := m w in k a w'.

(** The value a call returns and the state it leaves. *)
Definition result {W A} (m : Async W A) (w : W) : A := fst (m w).
Definition after {W A} (m : Async W A) (w : W) : W := snd (m w).

(** ** HTTP messages *)

(** A request as the ASGI scope gives it: the method, the percent-decoded
    path and the headers, keyed by lower-cased name (the framework reads
    [origin], [access-control-request-method],
    [access-control-request-headers] and [cookie]). *)
Record request : Type := Request {
  method : string;
  path : string;
  headers : gmap string string
}.

(** Pages the framework generates itself. *)
Inductive page : Type := OpenapiSchema | SwaggerUi | SwaggerUiRedirect | Redoc.

Inductive content : Type :=
| JSONContent (j : json)
| PlainText (s : string)
| Generated (p : page)
| RedirectTo (url_path : string).

(** A response: the status, the headers set by the middleware and the router
    error paths (lower-cased names; content-type, content-length and allow
    are not tracked) and the content. *)
Record response : Type := Response {
  status_code : Z;
  response_headers : gmap string string;
  body : content
}.

Definition JSONResponse (j : json) (status : Z) : response :=
  Response status ∅ (JSONContent j).

Definition PlainTextResponse (text : string) (status : Z)
    (hdrs : gmap string string) : response :=
  Response status hdrs (PlainText text).

(** [RedirectResponse(url)]: status 307 by default. *)
Definition RedirectResponse (url_path : string) : response :=
  Response 307 ∅ (RedirectTo url_path).

(** ** Strings *)

Definition LF : string := String (ascii_of_nat 10) "".

(** [s.rstrip("/")] *)
Fixpoint rstrip_slash (s : string) : string :=
  match s with
  | "" => ""
  | String c rest =>
      match rstrip_slash rest with
      | "" => if Ascii.eqb c "/" then "" else String c ""
      | kept => String c kept
      end
  end.

(** [s.endswith("/")] *)
Fixpoint endswith_slash (s : string) : bool :=
  match s with
  | "" => false
  | String c "" => Ascii.eqb c "/"
  | String _ rest => endswith_slash rest
  end.

(** [", ".join(parts)] *)
Fixpoint join_comma (parts : list string) : string :=
  match parts with
  | [] => ""
  | [p] => p
  | p :: rest => p ++ ", " ++ join_comma rest
  end.

(** [s.lower()], [s.strip()] and [s.split(",")] on ASCII text. *)
Definition lower_char (c : ascii) : ascii :=
  let n := nat_of_ascii c in
  if (65 <=? n)%nat && (n <=? 90)%nat then ascii_of_nat (n + 32) else c.

Fixpoint lower (s : string) : string :=
  match s with
  | "" => ""
  | String c rest => String (lower_char c) (lower rest)
  end.

Definition is_space (c : ascii) : bool :=
  let n := nat_of_ascii c in
  ((9 <=? n)%nat && (n <=? 13)%nat) || ((28 <=? n)%nat && (n <=? 32)%nat).

Fixpoint lstrip_by (space : ascii -> bool) (s : string) : string :=
  match s with
  | "" => ""
  | String c rest => if space c then lstrip_by space rest else s
  end.

Fixpoint rstrip_by (space : ascii -> bool) (s : string) : string :=
  match s with
  | "" => ""
  | String c rest =>
      match rstrip_by space rest with
      | "" => if space c then "" else String c ""
      | kept => String c kept
      end
  end.

Definition strip (s : string) : string :=
  rstrip_by is_space (lstrip_by is_space s).

Fixpoint split_comma_aux (s cur : string) : list string :=
  match s with
  | "" => [cur]
  | String c rest =>
      if Ascii.eqb c "," then cur :: split_comma_aux rest ""
      else split_comma_aux rest (cur ++ String c "")
  end.

Definition split_comma (s : string) : list string := split_comma_aux s "".

(** [sorted(xs)] on strings: insertion into an ordered list. *)
Fixpoint insert_sorted (x : string) (xs : list string) : list string :=
  match xs with
  | [] => [x]
  | y :: rest => if String.leb x y then x :: xs else y :: insert_sorted x rest
  end.

Definition sorted (xs : list string) : list string :=
  fold_right insert_sorted [] xs.

(** ** The framework: Starlette's CORS middleware

    [CORSMiddleware(app, allow_origins, allow_methods, allow_headers,
    allow_credentials)]; the arguments the module leaves at their defaults
    ([allow_origin_regex=None], [expose_headers=()], [max_age=600]) are
    fixed. *)
Record CORSMiddleware : Type := {
  allow_origins : list string;
  allow_credentials : bool;
  allow_methods : list string;
  allow_headers : list string
}.

Definition ALL_METHODS : list string :=
  ["DELETE"; "GET"; "HEAD"; "OPTIONS"; "PATCH"; "POST"; "PUT"].

Definition SAFELISTED_HEADERS : list string :=
  ["Accept"; "Accept-Language"; "Content-Language"; "Content-Type"].

Definition ACAO : string := "access-control-allow-origin".
Definition ACAC : string := "access-control-allow-credentials".
Definition ACAM : string := "access-control-allow-methods".
Definition ACAH : string := "access-control-allow-headers".
Definition ACMA : string := "access-control-max-age".
Definition VARY : string := "vary".

Section Cors.
Variable mw : CORSMiddleware.

(** What [__init__] derives from the arguments. *)
Definition cors_methods : list string :=
  if bool_decide ("*" ∈ allow_methods mw) then ALL_METHODS else allow_methods mw.

Definition allow_all_origins : bool := bool_decide ("*" ∈ allow_origins mw).
Definition allow_all_headers : bool := bool_decide ("*" ∈ allow_headers mw).

Definition preflight_explicit_allow_origin : bool :=
  negb allow_all_origins || allow_credentials mw.

Definition cors_headers_sorted : list string :=
  sorted (remove_dups (SAFELISTED_HEADERS ++ allow_headers mw)%list).

Definition simple_headers : gmap string string :=
  let h := ∅ in
  let h := if allow_all_origins then <[ACAO := "*"]> h else h in
  if allow_credentials mw then <[ACAC := "true"]> h else h.

Definition preflight_headers : gmap string string :=
  let h :=
    if preflight_explicit_allow_origin then <[VARY := "Origin"]> ∅
    else <[ACAO := "*"]> ∅ in
  let h := <[ACMA := "600"]> (<[ACAM := join_comma cors_methods]> h) in
  let h :=
    if negb allow_all_headers then <[ACAH := join_comma cors_headers_sorted]> h
    else h in
  if allow_credentials mw then <[ACAC := "true"]> h else h.

Definition is_allowed_origin (origin : string) : bool :=
  allow_all_origins || bool_decide (origin ∈ allow_origins mw).

(** [preflight_response]: the answer to an OPTIONS request that carries
    [Origin] and [Access-Control-Request-Method]. *)
Definition preflight_response (request_headers : gmap string string)
    (requested_origin requested_method : string) : response :=
  let requested_headers := request_headers !! "access-control-request-headers" in
  let origin_ok := is_allowed_origin requested_origin in
  let hdrs :=
    if origin_ok && preflight_explicit_allow_origin
    then <[ACAO := requested_origin]> preflight_headers
    else preflight_headers in
  let failures := if origin_ok then [] else ["origin"] in
  let failures :=
    if bool_decide (requested_method ∈ cors_methods) then failures
    else (failures ++ ["method"])%list in
  let '(hdrs, failures) :=
    match requested_headers with
    | None => (hdrs, failures)
    | Some wanted =>
        if allow_all_headers then (<[ACAH := wanted]> hdrs, failures)
        else if forallb
                  (fun h => bool_decide (strip h ∈ map lower cors_headers_sorted))
                  (map lower (split_comma wanted))
             then (hdrs, failures)
             else (hdrs, (failures ++ ["headers"])%list)
    end in
  match failures with
  | [] => PlainTextResponse "OK" 200 hdrs
  | _ => PlainTextResponse ("Disallowed CORS " ++ join_comma failures) 400 hdrs
  end.

(** [allow_explicit_origin] with [add_vary_header("Origin")]. *)
Definition allow_explicit_origin (hdrs : gmap string string) (origin : string)
    : gmap string string :=
  let hdrs := <[ACAO := origin]> hdrs in
  match hdrs !! VARY with
  | Some existing => <[VARY := existing ++ ", " ++ "Origin"]> hdrs
  | None => <[VARY := "Origin"]> hdrs
  end.

(** [send] on the start of the inner application's response. *)
Definition cors_send (request_headers : gmap string string) (origin : string)
    (resp : response) : response :=
  let hdrs := simple_headers ∪ response_headers resp in
  let has_cookie := bool_decide (is_Some (request_headers !! "cookie")) in
  let hdrs :=
    if allow_all_origins && has_cookie then allow_explicit_origin hdrs origin
    else if negb allow_all_origins && is_allowed_origin origin
         then allow_explicit_origin hdrs origin
         else hdrs in
  Response (status_code resp) hdrs (body resp).

(** [__call__] *)
Definition cors_call {W} (inner : request -> Async W response) (req : request)
    : Async W response :=
  match headers req !! "origin" with
  | None => inner req
  | Some origin =>
      match headers req !! "access-control-request-method" with
      | Some requested_method =>
          if String.eqb (method req) "OPTIONS"
          then mret (preflight_response (headers req) origin requested_method)
          else resp ← inner req; mret (cors_send (headers req) origin resp)
      | None => resp ← inner req; mret (cors_send (headers req) origin resp)
      end
  end.
End Cors.

(** ** The framework: routes and the router *)

Inductive Match : Type := NONE | PARTIAL | FULL.

(** A route path without parameters compiles to the regular expression
    [^path$], tried with [re.match]; Python's [$] also matches before a
    final line feed. *)
Definition path_regex_match (pattern p : string) : bool :=
  String.eqb p pattern || String.eqb p (pattern ++ LF).

(** [HTTPException(status_code)] through the framework's default handler:
    a JSON body with the standard phrase of the status. *)
Definition http_exception (status : Z) (phrase : string) : response :=
  JSONResponse (JDict [("detail", JStr phrase)]) status.

(** The path [Router.app] retries when no route matches: without its
    trailing slashes, or with one added. *)
Definition slash_toggled (p : string) : string :=
  if endswith_slash p then rstrip_slash p else p ++ "/".

Section Routing.
Context {W : Type}.

(** What a route runs: a path operation function of the module, whose
    return value becomes a JSON response with the default status 200, or a
    page of the framework. *)
Inductive endpoint : Type :=
| PathOperation (handler : Async W json)
| FrameworkPage (p : page).

Record Route : Type := {
  route_path : string;
  route_methods : list string;
  route_endpoint : endpoint
}.

(** [Route.matches] *)
Definition matches (r : Route) (req : request) : Match :=
  if path_regex_match (route_path r) (path req) then
    if bool_decide (method req ∈ route_methods r) then FULL else PARTIAL
  else NONE.

(** [Route.handle] *)
Definition handle (r : Route) (req : request) : Async W response :=
  if bool_decide (method req ∈ route_methods r) then
    match route_endpoint r with
    | PathOperation handler => content ← handler; mret (JSONResponse content 200)
    | FrameworkPage p => mret (Response 200 ∅ (Generated p))
    end
  else mret (http_exception 405 "Method Not Allowed").

(** The loop of [Router.app] over the routes: the first full match, else
    the first partial match. *)
Fixpoint select (routes : list Route) (req : request) (partial : option Route)
    : option Route :=
  match routes with
  | [] => partial
  | r :: rest =>
      match matches r req with
      | FULL => Some r
      | PARTIAL => select rest req (if partial is None then Some r else partial)
      | NONE => select rest req partial
      end
  end.

(** [Router.app] with [redirect_slashes=True], its default. *)
Definition router_app (routes : list Route) (req : request) : Async W response :=
  match select routes req None with
  | Some r => handle r req
  | None =>
      let redirect_path := slash_toggled (path req) in
      let redirect_req := Request (method req) redirect_path (headers req) in
      if negb (String.eqb (path req) "/")
         && existsb (fun r => if matches r redirect_req is NONE then false else true)
                    routes
      then mret (RedirectResponse redirect_path)
      else mret (http_exception 404 "Not Found")
  end.

(** ** The framework: the FastAPI application object *)
Record FastAPI : Type := {
  title : string;
  description : string;
  version : string;
  openapi_url : option string;
  docs_url : option string;
  redoc_url : option string;
  swagger_ui_oauth2_redirect_url : option string;
  routes : list Route;
  user_middleware : list CORSMiddleware
}.

(** [add_route(path, page)]: a Starlette route for a function, so its
    methods are GET and HEAD. *)
Definition page_route (url : string) (p : page) : Route :=
  {| route_path := url; route_methods := ["GET"; "HEAD"];
     route_endpoint := FrameworkPage p |}.

(** [FastAPI.setup]: the schema and documentation routes. *)
Definition setup (openapi docs redoc oauth2_redirect : option string) : list Route :=
  match openapi with
  | None => []
  | Some schema_url =>
      [page_route schema_url OpenapiSchema]
      ++ match docs with
         | None => []
         | Some url =>
             page_route url SwaggerUi
             :: match oauth2_redirect with
                | None => []
                | Some r => [page_route r SwaggerUiRedirect]
                end
         end
      ++ match redoc with
         | None => []
         | Some url => [page_route url Redoc]
         end
  end%list.

(** [FastAPI(title=..., description=..., version=..., docs_url=...,
    redoc_url=...)]; [openapi_url] and [swagger_ui_oauth2_redirect_url]
    keep their defaults. *)
Definition FastAPI_init (title description version : string)
    (docs_url redoc_url : option string) : FastAPI :=
  let openapi_url := Some "/openapi.json" in
  let oauth2 := Some "/docs/oauth2-redirect" in
  {| title := title; description := description; version := version;
     openapi_url := openapi_url; docs_url := docs_url; redoc_url := redoc_url;
     swagger_ui_oauth2_redirect_url := oauth2;
     routes := setup openapi_url docs_url redoc_url oauth2;
     user_middleware := [] |}.

(** [app.add_middleware(CORSMiddleware, ...)]: inserted at the front, so
    the last one added is the outermost. *)
Definition add_middleware (a : FastAPI) (mw : CORSMiddleware) : FastAPI :=
  {| title := title a; description := description a; version := version a;
     openapi_url := openapi_url a; docs_url := docs_url a;
     redoc_url := redoc_url a;
     swagger_ui_oauth2_redirect_url := swagger_ui_oauth2_redirect_url a;
     routes := routes a;
     user_middleware := mw :: user_middleware a |}.

(** [@app.get(path)]: an API route for GET only. *)
Definition get (a : FastAPI) (url : string) (handler : Async W json) : FastAPI :=
  {| title := title a; description := description a; version := version a;
     openapi_url := openapi_url a; docs_url := docs_url a;
     redoc_url := redoc_url a;
     swagger_ui_oauth2_redirect_url := swagger_ui_oauth2_redirect_url a;
     routes := (routes a ++ [{| route_path := url; route_methods := ["GET"];
                                route_endpoint := PathOperation handler |}])%list;
     user_middleware := user_middleware a |}.

(** The application called on a request: the middleware stack around the
    router. *)
Definition asgi_call (a : FastAPI) : request -> Async W response :=
  fold_right (fun mw inner => cors_call mw inner) (router_app (routes a))
             (user_middleware a).

(** The responses to a sequence of requests, one after the other. *)
Fixpoint serve (a : FastAPI) (reqs : list request) (w : W) : list response * W :=
  match reqs with
  | [] => ([], w)
  | req :: rest =>
      let '(resp, w1) := asgi_call a req w in
      let '(resps, w2) := serve a rest w1 in
      (resp :: resps, w2)
  end.
End Routing.

Arguments endpoint : clear implicits.
Arguments Route : clear implicits.
Arguments FastAPI : clear implicits.

(** ** The module: handlers and [app] *)

Section Handlers.
Context {W : Type}.

(** Root endpoint *)
Definition root : Async W json :=
  mret (JDict [("message", JStr "TX Analyzer API"); ("version", JStr "1.0.0")]).

(** Health check endpoint *)
Definition health_check : Async W json :=
  mret (JDict [("status", JStr "healthy"); ("service", JStr "tx-analyzer")]).

(** Placeholder for transaction analysis *)
Definition analyze_transactions : Async W json :=
  mret (JDict [("message", JStr "Transaction analysis endpoint");
               ("status", JStr "not implemented");
               ("features", JList [JStr "Anomaly detection";
                                   JStr "Risk scoring";
                                   JStr "Whale identification";
                                   JStr "Pattern recognition"])]).

(** Get detected anomalies *)
Definition get_anomalies : Async W json :=
  mret (JDict [("anomalies", JList []);
               ("total", JInt 0);
               ("message", JStr "No anomalies detected")]).

Definition cors : CORSMiddleware :=
  {| allow_origins := ["*"];
     allow_credentials := true;
     allow_methods := ["*"];
     allow_headers := ["*"] |}.

Definition app : FastAPI W :=
  let app := FastAPI_init "TX Analyzer"
               "AI-powered transaction analysis and anomaly detection service"
               "1.0.0" (Some "/docs") (Some "/redoc") in
  let app := add_middleware app cors in
  let app := get app "/" root in
  let app := get app "/health" health_check in
  let app := get app "/api/v1/analyze" analyze_transactions in
  get app "/api/v1/anomalies" get_anomalies.

(** The four operations of the service by name. *)
Inductive operation : Type :=
| Root | HealthCheck | AnalyzeTransactions | GetAnomalies.

Definition handler_of (op : operation) : Async W json :=
  match op with
  | Root => root
  | HealthCheck => health_check
  | AnalyzeTransactions => analyze_transactions
  | GetAnomalies => get_anomalies
  end.

Definition url_of (op : operation) : string :=
  match op with
  | Root => "/"
  | HealthCheck => "/health"
  | AnalyzeTransactions => "/api/v1/analyze"
  | GetAnomalies => "/api/v1/anomalies"
  end.

(** Calling operations one after the other: the values returned and the
    state left. *)
Fixpoint invoke_all (ops : list operation) (w : W) : list json * W :=
  match ops with
  | [] => ([], w)
  | op :: rest =>
      let '(v, w1) := handler_of op w in
      let '(vs, w2) := invoke_all rest w1 in
      (v :: vs, w2)
  end.
End Handlers.

Arguments operation : clear implicits.

(** ** The module: the start-up block *)

(** What [os.getenv("PORT", 8002)] can return: the text of the variable or
    the integer default. *)
Inductive pyobj : Type :=
| PyStr (s : string)
| PyInt (n : Z).

(** [os.getenv(key, default)] *)
Definition getenv (environ : gmap string string) (key : string) (default : pyobj)
    : pyobj :=
  match environ !! key with
  | Some value => PyStr value
  | None => default
  end.

Inductive exception : Type := ValueError.

(** The arguments of [uvicorn.run]. *)
Record uvicorn_run : Type := {
  run_app : string;
  host : string;
  port : Z;
  reload : bool
}.

Section Startup.
(** The builtin conversion of a text to an integer: [Some n] when the text
    parses, [None] when [int] raises [ValueError]. *)
Variable int_of_str : string -> option Z.

(** [int(x)] *)
Definition int (x : pyobj) : exception + Z :=
  match x with
  | PyInt n => inr n
  | PyStr s =>
      match int_of_str s with
      | Some n => inr n
      | None => inl ValueError
      end
  end.

(** The block under [if __name__ == "__main__":], for the module loaded
    under the name [name]: the call of [uvicorn.run] it makes, if any. *)
Definition main (name : string) (environ : gmap string string)
    : exception + option uvicorn_run :=
  if String.eqb name "__main__" then
    match int (getenv environ "PORT" (PyInt 8002)) with
    | inl e => inl e
    | inr port =>
        inr (Some {| run_app := "main:app"; host := "0.0.0.0";
                     port := port; reload := true |})
    end
  else inr None.
End Startup.

(** The conversion [int] performs on ASCII text in base 10: white space
    around (tab to carriage return, and the space), an optional sign, then decimal digits with single underscores
    between them.  (The interpreter's limit on the number of digits of a
    text is not part of it.)  It is the instance the start-up block is run
    with in the examples; the properties hold for every conversion. *)
Definition is_int_space (c : ascii) : bool :=
  let n := nat_of_ascii c in
  ((9 <=? n)%nat && (n <=? 13)%nat) || (n =? 32)%nat.

Definition int_strip (s : string) : string :=
  rstrip_by is_int_space (lstrip_by is_int_space s).

Definition digit_value (c : ascii) : option Z :=
  let n := nat_of_ascii c in
  if (48 <=? n)%nat && (n <=? 57)%nat then Some (Z.of_nat (n - 48)) else None.

Fixpoint digits_value (s : string) (acc : Z) (after_digit : bool) : option Z :=
  match s with
  | "" => if after_digit then Some acc else None
  | String c rest =>
      match digit_value c with
      | Some d => digits_value rest (10 * acc + d) true
      | None =>
          if Ascii.eqb c "_" && after_digit then digits_value rest acc false
          else None
      end
  end.

Definition int_of_ascii (s : string) : option Z :=
  match int_strip s with
  | String "+" digits => digits_value digits 0 false
  | String "-" digits => Z.opp <$> digits_value digits 0 false
  | digits => digits_value digits 0 false
  end.

(** [str(n)] for a natural number: its decimal digits, most significant
    first, without leading zeros. *)
Definition digit_char (d : N) : ascii := ascii_of_N (48 + d).

Fixpoint decimal_go (fuel : nat) (n : N) (acc : string) : string :=
  match fuel with
  | O => acc
  | S fuel' =>
      let acc' := String (digit_char (n mod 10)) acc in
      if (n / 10 =? 0)%N then acc' else decimal_go fuel' (n / 10) acc'
  end.

Definition str (n : N) : string := decimal_go (S (N.to_nat (N.log2 n))) n "".

(** Texts made of decimal digits only. *)
Fixpoint digits_only (s : string) : bool :=
  match s with
  | "" => true
  | String c rest => bool_decide (is_Some (digit_value c)) && digits_only rest
  end.

(** ** Vocabulary of the properties *)

(** A CORS preflight: an OPTIONS request that carries [Origin] and
    [Access-Control-Request-Method]. *)
Definition is_preflight (req : request) : bool :=
  String.eqb (method req) "OPTIONS"
  && bool_decide (is_Some (headers req !! "origin"))
  && bool_decide (is_Some (headers req !! "access-control-request-method")).

(** The paths of the routes of [app], in order: those of the framework's
    schema and documentation pages, then those of the four handlers. *)
Definition served_paths : list string := map route_path (routes (@app unit)).

(** [p] is the path of a route of [app]. *)
Definition names_route (p : string) : bool :=
  existsb (fun pattern => path_regex_match pattern p) served_paths.

(** The items of a comma-separated header value. *)
Definition header_items (value : string) : list string :=
  map strip (split_comma value).

(** The response lets a page of the request's origin read it:
    [Access-Control-Allow-Origin] is [*] or the origin of the request. *)
Definition allows_origin (req : request) (resp : response) : Prop :=
  response_headers resp !! ACAO = Some "*"
  \/ exists o, headers req !! "origin" = Some o
               /\ response_headers resp !! ACAO = Some o.

Definition allows_credentials (resp : response) : Prop :=
  response_headers resp !! ACAC = Some "true".

(** [Access-Control-Allow-Methods] lists the method [m], or [*]. *)
Definition allows_method (resp : response) (m : string) : bool :=
  match response_headers resp !! ACAM with
  | Some value =>
      bool_decide (m ∈ header_items value) || bool_decide ("*" ∈ header_items value)
  | None => false
  end.

(** [Access-Control-Allow-Headers] grants the headers asked for: it repeats
    the request's [Access-Control-Request-Headers], or is [*]. *)
Definition allows_headers (req : request) (resp : response) : Prop :=
  forall wanted, headers req !! "access-control-request-headers" = Some wanted ->
    response_headers resp !! ACAH = Some wanted
    \/ response_headers resp !! ACAH = Some "*".

(** Permissive CORS headers: any origin, credentials, and on a preflight the
    method and the headers asked for. *)
Definition permissive_cors (req : request) (resp : response) : Prop :=
  allows_origin req resp
  /\ allows_credentials resp
  /\ (is_preflight req = true ->
      (forall m, headers req !! "access-control-request-method" = Some m ->
                 allows_method resp m = true)
      /\ allows_headers req resp).

(** Texts by their characters: some decimal digit; ASCII only; white space
    (as [int] skips it) only. *)
Fixpoint has_digit (s : string) : bool :=
  match s with
  | "" => false
  | String c rest => bool_decide (is_Some (digit_value c)) || has_digit rest
  end.

Fixpoint ascii_only (s : string) : bool :=
  match s with
  | "" => true
  | String c rest => (nat_of_ascii c <? 128)%nat && ascii_only rest
  end.

Fixpoint spaces_only (s : string) : bool :=
  match s with
  | "" => true
  | String c rest => is_int_space c && spaces_only rest
  end.

(** ** Properties *)

Open Scope Z_scope.

(** *** The model on sample inputs *)

Example path_regex_match_examples :
  path_regex_match "/health" "/health" = true
  /\ path_regex_match "/health" ("/health" ++ LF) = true
  /\ path_regex_match "/health" "/health/" = false
  /\ path_regex_match "/" "" = false.
Proof. repeat split. Qed.

Example slash_toggled_examples :
  slash_toggled "/health/" = "/health"
  /\ slash_toggled "/health" = "/health/"
  /\ slash_toggled "/a//" = "/a"
  /\ slash_toggled "//" = "".
Proof. repeat split. Qed.

Example header_items_examples :
  header_items "DELETE, GET,HEAD" = ["DELETE"; "GET"; "HEAD"]
  /\ join_comma ALL_METHODS = "DELETE, GET, HEAD, OPTIONS, PATCH, POST, PUT"
  /\ sorted ["b"; "a"; "B"; "_"] = ["B"; "_"; "a"; "b"].
Proof. repeat split. Qed.

Example served_paths_eq :
  served_paths = ["/openapi.json"; "/docs"; "/docs/oauth2-redirect"; "/redoc";
                  "/"; "/health"; "/api/v1/analyze"; "/api/v1/anomalies"].
Proof. reflexivity. Qed.

Example preflight_example :
  let req := Request "OPTIONS" "/health"
               (<["access-control-request-headers" := "x-trace"]>
                  (<["access-control-request-method" := "POST"]>
                     {["origin" := "https://app.example"]})) in
  let resp := result (asgi_call app req) tt in
  status_code resp = 200%Z
  /\ body resp = PlainText "OK"
  /\ map_to_list (response_headers resp)
     ≡ₚ [(ACAO, "https://app.example"); (ACAC, "true");
         (ACAM, "DELETE, GET, HEAD, OPTIONS, PATCH, POST, PUT");
         (ACAH, "x-trace"); (ACMA, "600"); (VARY, "Origin")].
Proof.
  repeat split. vm_compute map_to_list.
  apply NoDup_Permutation.
  - repeat (constructor; [rewrite ?elem_of_cons, ?elem_of_nil; intuition congruence|]).
    constructor.
  - repeat (constructor; [rewrite ?elem_of_cons, ?elem_of_nil; intuition congruence|]).
    constructor.
  - intros x. rewrite !elem_of_cons, !elem_of_nil. intuition.
Qed.

(** *** Computations that neither read nor write the state *)

Definition stateless {W A} (m : Async W A) : Prop :=
  forall w, after m w = w /\ forall w', result m w' = result m w.

Definition route_stateless {W} (r : Route W) : Prop :=
  match route_endpoint r with
  | PathOperation handler => stateless handler
  | FrameworkPage _ => True
  end.

Ltac unfold_async :=
  unfold stateless, result, after, mbind, async_bind, mret, async_ret in *;
  simpl in *.

Lemma stateless_ret {W A} (a : A) : stateless (mret a : Async W A).
Proof. unfold_async. auto. Qed.

Lemma stateless_bind {W A B} (m : Async W A) (k : A -> Async W B) :
  stateless m -> (forall a, stateless (k a)) -> stateless (m ≫= k).
Proof.
  intros Hm Hk. unfold_async. intros w.
  destruct (Hm w) as [Hw Hr]. destruct (m w) as [a w1] eqn:E. simpl in *. subst w1.
  split; [apply Hk|].
  intros w'. specialize (Hr w'). destruct (m w') as [a' w1'] eqn:E'. simpl in *.
  subst a'. destruct (Hm w') as [Hw' _]. rewrite E' in Hw'. simpl in Hw'. subst w1'.
  destruct (Hk a w) as [_ Hk2]. apply Hk2.
Qed.

Create HintDb stateless.
#[local] Hint Resolve stateless_ret stateless_bind : stateless.

Section Stateless.
Context {W : Type}.
Implicit Types (r : Route W) (a : FastAPI W) (req : request).

Lemma handle_stateless r req : route_stateless r -> stateless (handle r req).
Proof.
  unfold handle, route_stateless. intros Hr.
  destruct (bool_decide _); [|auto with stateless].
  destruct (route_endpoint r); auto with stateless.
Qed.

Lemma select_elem_of (routes : list (Route W)) req partial r :
  select routes req partial = Some r -> r ∈ routes \/ partial = Some r.
Proof.
  revert partial. induction routes as [|r0 routes IH]; simpl; intros partial H.
  - auto.
  - destruct (matches r0 req).
    + apply IH in H as [H|H]; [left; by constructor | by right].
    + apply IH in H as [H|H]; [left; by constructor |].
      destruct partial; [by right | left]. inversion H. constructor.
    + inversion H. left. constructor.
Qed.

Lemma router_app_stateless (routes : list (Route W)) req :
  Forall route_stateless routes -> stateless (router_app routes req).
Proof.
  intros Hall. unfold router_app.
  destruct (select routes req None) as [r|] eqn:E.
  - apply handle_stateless. apply select_elem_of in E as [E|E]; [|discriminate].
    rewrite Forall_forall in Hall. by apply Hall.
  - destruct (_ && _); auto with stateless.
Qed.

Lemma cors_call_stateless mw (inner : request -> Async W response) req :
  (forall req', stateless (inner req')) -> stateless (cors_call mw inner req).
Proof.
  intros Hin. unfold cors_call.
  destruct (headers req !! "origin"); [|apply Hin].
  destruct (headers req !! "access-control-request-method");
    [destruct (String.eqb _ _)|]; auto with stateless.
Qed.

Lemma asgi_call_stateless a req :
  Forall route_stateless (routes a) -> stateless (asgi_call a req).
Proof.
  intros Hall. unfold asgi_call. revert req.
  induction (user_middleware a) as [|mw mws IH]; simpl; intros req.
  - by apply router_app_stateless.
  - by apply cors_call_stateless.
Qed.

Lemma app_routes_stateless : Forall route_stateless (routes (@app W)).
Proof.
  repeat constructor; unfold route_stateless; simpl; auto with stateless.
Qed.

Lemma app_stateless req : stateless (asgi_call (@app W) req).
Proof. apply asgi_call_stateless, app_routes_stateless. Qed.

Lemma handler_stateless (op : operation) : stateless (@handler_of W op).
Proof. destruct op; apply stateless_ret. Qed.

(** Serving a sequence of requests leaves the state as it was, and every
    response is the one the request gets on its own. *)
Lemma serve_stateless a reqs w :
  (forall req, stateless (asgi_call a req)) ->
  serve a reqs w = (map (fun req => result (asgi_call a req) w) reqs, w).
Proof.
  intros Ha. induction reqs as [|req reqs IH]; simpl; [done|].
  destruct (Ha req w) as [Hw _]. unfold result, after in *.
  destruct (asgi_call a req w) as [resp w1]. simpl in *. subst w1.
  by rewrite IH.
Qed.

Lemma invoke_all_stateless (ops : list operation) (w : W) :
  invoke_all ops w = (map (fun op => result (handler_of op) w) ops, w).
Proof.
  induction ops as [|op ops IH]; simpl; [done|].
  destruct (handler_stateless op w) as [Hw _]. unfold result, after in *.
  destruct (handler_of op w) as [v w1]. simpl in *. subst w1.
  by rewrite IH.
Qed.
End Stateless.

(** *** The router on the four operations *)

Section Responses.
Context {W : Type}.
Implicit Types (req : request) (w : W) (op : operation).

Lemma asgi_call_app req :
  asgi_call (@app W) req = cors_call cors (router_app (routes app)) req.
Proof. reflexivity. Qed.

(** A GET on the path of an operation runs its handler and answers 200 with
    the value returned. *)
Lemma router_app_operation req op w :
  method req = "GET" -> path req = url_of op ->
  router_app (routes app) req w = (JSONResponse (result (handler_of op) w) 200, w).
Proof.
  destruct req as [m p h]; simpl; intros -> ->. by destruct op.
Qed.

(** The middleware neither changes the status nor the content of what the
    router answers, unless the request is a preflight. *)
Lemma cors_call_status_body req w :
  is_preflight req = false ->
  status_code (result (asgi_call app req) w)
    = status_code (result (router_app (routes app) req) w)
  /\ body (result (asgi_call app req) w)
    = body (result (router_app (routes app) req) w).
Proof.
  rewrite asgi_call_app. unfold is_preflight, cors_call. intros Hpre.
  destruct (headers req !! "origin") as [o|]; [|done].
  destruct (headers req !! "access-control-request-method") as [rm|].
  - destruct (String.eqb (method req) "OPTIONS"); [done|].
    unfold_async. by destruct (router_app _ req w).
  - unfold_async. by destruct (router_app _ req w).
Qed.

Lemma get_is_not_preflight req : method req = "GET" -> is_preflight req = false.
Proof. unfold is_preflight. by intros ->. Qed.

Lemma operation_response req op w :
  method req = "GET" -> path req = url_of op ->
  status_code (result (asgi_call app req) w) = 200
  /\ body (result (asgi_call app req) w)
     = JSONContent (result (handler_of op) w).
Proof.
  intros Hm Hp.
  destruct (cors_call_status_body req w (get_is_not_preflight req Hm)) as [-> ->].
  assert (result (router_app (routes app) req) w
          = JSONResponse (result (handler_of op) w) 200) as ->.
  { unfold result at 1. by rewrite (router_app_operation req op w Hm Hp). }
  done.
Qed.
End Responses.

(** *** The four routes *)

(** C1: every GET request on [/] is answered by [root] with status 200 and
    the body [{"message": "TX Analyzer API", "version": "1.0.0"}], whatever
    the headers of the request and the state of the process. *)
Theorem root_response {W} (w : W) (req : request) :
  method req = "GET" -> path req = "/" ->
  result root w
    = JDict [("message", JStr "TX Analyzer API"); ("version", JStr "1.0.0")]
  /\ status_code (result (asgi_call app req) w) = 200
  /\ body (result (asgi_call app req) w)
     = JSONContent (JDict [("message", JStr "TX Analyzer API");
                           ("version", JStr "1.0.0")]).
Proof.
  intros Hm Hp. split; [reflexivity|].
  apply (operation_response req Root w Hm Hp).
Qed.

Lemma root_response_witness :
  let req := Request "GET" "/" {["origin" := "https://example.org"]} in
  method req = "GET" /\ path req = "/"
  /\ status_code (result (asgi_call app req) tt) = 200
  /\ body (result (asgi_call app req) tt)
     = JSONContent (JDict [("message", JStr "TX Analyzer API");
                           ("version", JStr "1.0.0")]).
Proof.
  intros req. split; [reflexivity|]. split; [reflexivity|].
  apply (root_response tt req); reflexivity.
Defined.

(** C2: every GET request on [/health] is answered by [health_check] with
    status 200 and the body [{"status": "healthy", "service": "tx-analyzer"}]. *)
Theorem health_check_response {W} (w : W) (req : request) :
  method req = "GET" -> path req = "/health" ->
  result health_check w
    = JDict [("status", JStr "healthy"); ("service", JStr "tx-analyzer")]
  /\ status_code (result (asgi_call app req) w) = 200
  /\ body (result (asgi_call app req) w)
     = JSONContent (JDict [("status", JStr "healthy");
                           ("service", JStr "tx-analyzer")]).
Proof.
  intros Hm Hp. split; [reflexivity|].
  apply (operation_response req HealthCheck w Hm Hp).
Qed.

Lemma health_check_response_witness :
  let req := Request "GET" "/health" {["cookie" := "session=1"]} in
  method req = "GET" /\ path req = "/health"
  /\ status_code (result (asgi_call app req) tt) = 200
  /\ body (result (asgi_call app req) tt)
     = JSONContent (JDict [("status", JStr "healthy");
                           ("service", JStr "tx-analyzer")]).
Proof.
  intros req. split; [reflexivity|]. split; [reflexivity|].
  apply (health_check_response tt req); reflexivity.
Defined.

(** C3: for every GET request on [/api/v1/analyze], the [features] field of
    the value [analyze_transactions] returns, which is the body of the
    response, is the list of exactly four strings "Anomaly detection",
    "Risk scoring", "Whale identification", "Pattern recognition", in that
    order. *)
Theorem analyze_features {W} (w : W) (req : request) :
  method req = "GET" -> path req = "/api/v1/analyze" ->
  exists content features,
    body (result (asgi_call app req) w) = JSONContent content
    /\ content = result analyze_transactions w
    /\ dict_get "features" content = Some (JList features)
    /\ length features = 4%nat
    /\ features = [JStr "Anomaly detection"; JStr "Risk scoring";
                   JStr "Whale identification"; JStr "Pattern recognition"].
Proof.
  intros Hm Hp.
  destruct (operation_response req AnalyzeTransactions w Hm Hp) as [_ Hb].
  eexists _, _. split; [exact Hb|]. repeat split; reflexivity.
Qed.

Lemma analyze_features_witness :
  let req := Request "GET" "/api/v1/analyze" ∅ in
  method req = "GET" /\ path req = "/api/v1/analyze"
  /\ exists content features,
       body (result (asgi_call app req) tt) = JSONContent content
       /\ content = result analyze_transactions tt
       /\ dict_get "features" content = Some (JList features)
       /\ length features = 4%nat
       /\ features = [JStr "Anomaly detection"; JStr "Risk scoring";
                      JStr "Whale identification"; JStr "Pattern recognition"].
Proof.
  intros req. split; [reflexivity|]. split; [reflexivity|].
  apply (analyze_features tt req); reflexivity.
Defined.

(** C4: in any sequence of requests, every GET request on
    [/api/v1/anomalies] is answered by [get_anomalies] with [total] equal to
    0 and [anomalies] empty, whatever was requested before it and however
    often it is repeated; serving the sequence leaves the state of the
    process as it was. *)
Theorem anomalies_always_empty {W} (w : W) (reqs : list request) (i : nat)
    (req : request) :
  reqs !! i = Some req ->
  method req = "GET" -> path req = "/api/v1/anomalies" ->
  exists resp content,
    fst (serve app reqs w) !! i = Some resp
    /\ status_code resp = 200
    /\ body resp = JSONContent content
    /\ content = result get_anomalies w
    /\ dict_get "total" content = Some (JInt 0)
    /\ dict_get "anomalies" content = Some (JList [])
    /\ snd (serve app reqs w) = w.
Proof.
  intros Hi Hm Hp.
  rewrite (serve_stateless app reqs w app_stateless). simpl.
  destruct (operation_response req GetAnomalies w Hm Hp) as [Hs Hb].
  exists (result (asgi_call app req) w), (result get_anomalies w).
  split; [by rewrite list_lookup_fmap, Hi|].
  repeat split; assumption || reflexivity.
Qed.

Lemma anomalies_always_empty_witness :
  let req := Request "GET" "/api/v1/anomalies" ∅ in
  let reqs := [req; Request "POST" "/health" ∅; req; Request "GET" "/" ∅; req] in
  exists resp content,
    fst (serve app reqs tt) !! 4%nat = Some resp
    /\ status_code resp = 200
    /\ body resp = JSONContent content
    /\ content = result get_anomalies tt
    /\ dict_get "total" content = Some (JInt 0)
    /\ dict_get "anomalies" content = Some (JList [])
    /\ snd (serve app reqs tt) = tt.
Proof.
  intros req reqs.
  apply (anomalies_always_empty tt reqs 4 req); reflexivity.
Defined.

(** C5: each of the four operations is stateless.  In any sequence of
    invocations, in any order, two invocations of the same operation return
    the same value; that value is the one the operation returns in every
    state, and the state is left as it was. *)
Theorem operations_stateless {W} (w : W) (ops : list operation) (i j : nat)
    (op : operation) :
  ops !! i = Some op -> ops !! j = Some op ->
  exists v,
    fst (invoke_all ops w) !! i = Some v
    /\ fst (invoke_all ops w) !! j = Some v
    /\ (forall w' : W, result (handler_of op) w' = v)
    /\ snd (invoke_all ops w) = w.
Proof.
  intros Hi Hj. rewrite invoke_all_stateless. simpl.
  exists (result (handler_of op) w).
  rewrite !list_lookup_fmap, Hi, Hj. repeat split.
  intros w'. apply (handler_stateless op w).
Qed.

Lemma operations_stateless_witness :
  let ops := [GetAnomalies; Root; HealthCheck; GetAnomalies;
              AnalyzeTransactions; Root] in
  exists v,
    fst (invoke_all ops 0%nat) !! 1%nat = Some v
    /\ fst (invoke_all ops 0%nat) !! 5%nat = Some v
    /\ (forall w' : nat, result (handler_of Root) w' = v)
    /\ snd (invoke_all ops 0%nat) = 0%nat.
Proof.
  intros ops. apply (operations_stateless 0%nat ops 1 5 Root); reflexivity.
Defined.

(** C10: in every response produced by [get_anomalies], the [total] field
    equals the length of the [anomalies] sequence. *)
Theorem anomalies_total_is_length {W} (w : W) (req : request) :
  method req = "GET" -> path req = "/api/v1/anomalies" ->
  exists content items total,
    body (result (asgi_call app req) w) = JSONContent content
    /\ content = result get_anomalies w
    /\ dict_get "anomalies" content = Some (JList items)
    /\ dict_get "total" content = Some (JInt total)
    /\ total = Z.of_nat (length items).
Proof.
  intros Hm Hp.
  destruct (operation_response req GetAnomalies w Hm Hp) as [_ Hb].
  eexists _, _, _. split; [exact Hb|]. repeat split; reflexivity.
Qed.

Lemma anomalies_total_is_length_witness :
  let req := Request "GET" "/api/v1/anomalies" {["origin" := "null"]} in
  exists content items total,
    body (result (asgi_call app req) tt) = JSONContent content
    /\ content = result get_anomalies tt
    /\ dict_get "anomalies" content = Some (JList items)
    /\ dict_get "total" content = Some (JInt total)
    /\ total = Z.of_nat (length items).
Proof.
  intros req. apply (anomalies_total_is_length tt req); reflexivity.
Defined.

(** *** Start-up *)

Lemma digit_value_char (d : N) :
  (d < 10)%N -> digit_value (digit_char d) = Some (Z.of_N d).
Proof.
  intros Hd.
  assert (H : (d = 0 \/ d = 1 \/ d = 2 \/ d = 3 \/ d = 4 \/ d = 5 \/ d = 6
               \/ d = 7 \/ d = 8 \/ d = 9)%N) by lia.
  destruct H as [->|[->|[->|[->|[->|[->|[->|[->|[->| ->]]]]]]]]]; reflexivity.
Qed.

Lemma decimal_go_S (fuel : nat) (n : N) (acc : string) :
  decimal_go (S fuel) n acc
  = if (n / 10 =? 0)%N then String (digit_char (n mod 10)) acc
    else decimal_go fuel (n / 10) (String (digit_char (n mod 10)) acc).
Proof. reflexivity. Qed.

Lemma digits_value_decimal_go (fuel : nat) : forall (n : N) (acc : string) (b : bool),
  (n < 2 ^ N.of_nat (S fuel))%N ->
  digits_value (decimal_go (S fuel) n acc) 0 b = digits_value acc (Z.of_N n) true.
Proof.
  induction fuel as [|fuel IH]; intros n acc b Hn;
    assert (Hmod : (n mod 10 < 10)%N) by (by apply N.mod_lt);
    assert (Hn10 : n = (10 * (n / 10) + n mod 10)%N) by (by apply N.div_mod);
    rewrite decimal_go_S; destruct (N.eqb_spec (n / 10) 0) as [H0|H0].
  - cbn [digits_value]. rewrite digit_value_char by done. do 2 f_equal.
    rewrite H0 in Hn10. lia.
  - exfalso. change (2 ^ N.of_nat 1)%N with 2%N in Hn.
    revert Hmod Hn10 H0. generalize (n / 10)%N (n mod 10)%N. lia.
  - cbn [digits_value]. rewrite digit_value_char by done. do 2 f_equal.
    rewrite H0 in Hn10. lia.
  - rewrite IH.
    + cbn [digits_value]. rewrite digit_value_char by done. f_equal.
      revert Hmod Hn10. generalize (n / 10)%N (n mod 10)%N. lia.
    + rewrite Nat2N.inj_succ, N.pow_succ_r' in Hn.
      revert Hn Hmod Hn10.
      generalize (2 ^ N.of_nat (S fuel))%N (n / 10)%N (n mod 10)%N. lia.
Qed.

Lemma digits_only_decimal_go (fuel : nat) : forall (n : N) (acc : string),
  digits_only acc = true -> digits_only (decimal_go fuel n acc) = true.
Proof.
  induction fuel as [|fuel IH]; intros n acc Hacc; cbn [decimal_go]; [done|].
  assert (Hd : digits_only (String (digit_char (n mod 10)) acc) = true).
  { cbn [digits_only]. rewrite Hacc, andb_true_r. apply bool_decide_eq_true.
    rewrite digit_value_char by (apply N.mod_lt; lia). by eexists. }
  destruct (n / 10 =? 0)%N; [done|]. by apply IH.
Qed.

Lemma is_digit_not_space (c : ascii) :
  is_Some (digit_value c) -> is_int_space c = false.
Proof.
  unfold digit_value, is_int_space. intros [d Hd].
  destruct (48 <=? nat_of_ascii c)%nat eqn:E1; [|done].
  apply Nat.leb_le in E1.
  destruct (nat_of_ascii c <=? 13)%nat eqn:E2; [apply Nat.leb_le in E2; lia|].
  destruct (nat_of_ascii c =? 32)%nat eqn:E3; [apply Nat.eqb_eq in E3; lia|].
  by rewrite andb_false_r.
Qed.

Lemma rstrip_digits (s : string) :
  digits_only s = true -> rstrip_by is_int_space s = s.
Proof.
  induction s as [|c s IH]; cbn [digits_only rstrip_by]; [done|].
  intros [Hc Hs]%andb_true_iff. apply bool_decide_eq_true in Hc.
  rewrite (IH Hs). destruct s; [|done].
  by rewrite (is_digit_not_space c Hc).
Qed.

Lemma strip_digits (s : string) : digits_only s = true -> int_strip s = s.
Proof.
  intros Hs. unfold int_strip.
  assert (lstrip_by is_int_space s = s) as ->.
  { destruct s as [|c s]; [done|]. cbn [digits_only] in Hs.
    apply andb_true_iff in Hs as [Hc _]. apply bool_decide_eq_true in Hc.
    cbn [lstrip_by]. by rewrite (is_digit_not_space c Hc). }
  by apply rstrip_digits.
Qed.

Lemma int_of_ascii_digits (s : string) :
  digits_only s = true -> int_of_ascii s = digits_value s 0 false.
Proof.
  intros Hs. unfold int_of_ascii. rewrite (strip_digits s Hs).
  destruct s as [|c s]; [done|]. cbn [digits_only] in Hs.
  apply andb_true_iff in Hs as [Hc _]. apply bool_decide_eq_true in Hc.
  destruct Hc as [d Hd].
  destruct c as [[] [] [] [] [] [] [] []]; try reflexivity; discriminate.
Qed.

(** Reading back the decimal text of a number gives the number. *)
Lemma int_of_ascii_str (n : N) : int_of_ascii (str n) = Some (Z.of_N n).
Proof.
  unfold str. rewrite int_of_ascii_digits by (by apply digits_only_decimal_go).
  rewrite digits_value_decimal_go; [done|].
  rewrite Nat2N.inj_succ, N2Nat.id.
  destruct n as [|p]; [done|]. apply N.log2_spec. lia.
Qed.

(** With [PORT] set to the decimal text of a port number, that number is the
    port handed to [uvicorn.run]. *)
Lemma startup_port_decimal (environ : gmap string string) (n : N) :
  (n < 65536)%N ->
  environ !! "PORT" = Some (str n) ->
  main int_of_ascii "__main__" environ
  = inr (Some {| run_app := "main:app"; host := "0.0.0.0";
                 port := Z.of_N n; reload := true |}).
Proof.
  intros _ Henv. unfold main, getenv, int. simpl.
  by rewrite Henv, int_of_ascii_str.
Qed.

Example startup_examples :
  str 8080 = "8080"
  /\ int_of_ascii " +9_000 " = Some 9000
  /\ int_of_ascii "0x1F90" = None
  /\ int_of_ascii "80 80" = None
  /\ int_of_ascii (String (ascii_of_nat 28) "80") = None
  /\ main int_of_ascii "main" {["PORT" := "oops"]} = inr None.
Proof. repeat split. Qed.

(** C7: run as the main module, the start-up block calls [uvicorn.run] on
    host [0.0.0.0] (all interfaces) with port 8002 when [PORT] is unset, and
    with the integer that [int] reads from [PORT] when it is set; a value
    other than 8002 is the port handed over instead of 8002. *)
Theorem startup_port (int_of_str : string -> option Z)
    (environ : gmap string string) :
  let run n := inr (Some {| run_app := "main:app"; host := "0.0.0.0";
                            port := n; reload := true |}) in
  (environ !! "PORT" = None -> main int_of_str "__main__" environ = run 8002)
  /\ (forall s n,
        environ !! "PORT" = Some s -> int_of_str s = Some n ->
        main int_of_str "__main__" environ = run n)
  /\ (forall s n,
        environ !! "PORT" = Some s -> int_of_str s = Some n -> n <> 8002 ->
        exists r, main int_of_str "__main__" environ = inr (Some r)
                  /\ host r = "0.0.0.0" /\ port r = n /\ port r <> 8002).
Proof.
  intros run. unfold main, getenv, int, run. simpl. repeat split.
  - by intros ->.
  - by intros s n -> ->.
  - intros s n -> -> Hn. by eexists.
Qed.

Lemma startup_port_witness :
  main int_of_ascii "__main__" ∅
    = inr (Some {| run_app := "main:app"; host := "0.0.0.0";
                   port := 8002; reload := true |})
  /\ main int_of_ascii "__main__" {["PORT" := "9000"]}
     = inr (Some {| run_app := "main:app"; host := "0.0.0.0";
                    port := 9000; reload := true |})
  /\ exists r, main int_of_ascii "__main__" {["HOME" := "/srv"; "PORT" := "8080"]}
               = inr (Some r)
               /\ host r = "0.0.0.0" /\ port r = 8080 /\ port r <> 8002.
Proof.
  split; [|split].
  - apply (proj1 (startup_port int_of_ascii ∅)). reflexivity.
  - apply (proj1 (proj2 (startup_port int_of_ascii {["PORT" := "9000"]})) "9000" 9000);
      reflexivity.
  - apply (proj2 (proj2 (startup_port int_of_ascii
                           {["HOME" := "/srv"; "PORT" := "8080"]})) "8080" 8080);
      [reflexivity | reflexivity | lia].
Defined.

(** C9: when [PORT] is set to a text that [int] does not parse, the start-up
    block fails with the [ValueError] of the conversion and [uvicorn.run] is
    not called; port 8002 is handed over only when [PORT] is unset, or set
    to a text that parses to 8002, never for a text that does not parse. *)
Theorem startup_unparsable_port (int_of_str : string -> option Z)
    (environ : gmap string string) :
  (forall s, environ !! "PORT" = Some s -> int_of_str s = None ->
             main int_of_str "__main__" environ = inl ValueError)
  /\ (forall r, main int_of_str "__main__" environ = inr (Some r) ->
                port r = 8002 ->
                environ !! "PORT" = None
                \/ exists s, environ !! "PORT" = Some s /\ int_of_str s = Some 8002).
Proof.
  unfold main, getenv, int. simpl. split.
  - by intros s -> ->.
  - intros r. destruct (environ !! "PORT") as [s|]; [|by left].
    destruct (int_of_str s) as [n|] eqn:E; [|discriminate].
    intros [= <-]. simpl. intros ->. right. by exists s.
Qed.

Lemma startup_unparsable_port_witness :
  main int_of_ascii "__main__" {["PORT" := "eight thousand"]} = inl ValueError
  /\ main int_of_ascii "__main__" {["PORT" := ""]} = inl ValueError
  /\ (({[ "PORT" := "8002" ]} : gmap string string) !! "PORT" = None
      \/ exists s, ({[ "PORT" := "8002" ]} : gmap string string) !! "PORT" = Some s
                   /\ int_of_ascii s = Some 8002).
Proof.
  split; [|split].
  - apply (proj1 (startup_unparsable_port int_of_ascii _) "eight thousand");
      reflexivity.
  - apply (proj1 (startup_unparsable_port int_of_ascii _) ""); reflexivity.
  - apply (proj2 (startup_unparsable_port int_of_ascii {["PORT" := "8002"]})
             {| run_app := "main:app"; host := "0.0.0.0"; port := 8002;
                reload := true |}); reflexivity.
Defined.

(** *** Cross-origin requests *)

Lemma cors_flags :
  allow_all_origins cors = true /\ allow_all_headers cors = true
  /\ preflight_explicit_allow_origin cors = true
  /\ cors_methods cors = ALL_METHODS.
Proof. repeat split. Qed.

(** What the middleware of [app] adds to the answer of the inner
    application, for a request that carries [Origin]. *)
Lemma cors_send_headers (request_headers : gmap string string) (o : string)
    (resp : response) :
  let sent := cors_send cors request_headers o resp in
  (response_headers sent !! ACAO = Some "*" \/ response_headers sent !! ACAO = Some o)
  /\ response_headers sent !! ACAC = Some "true"
  /\ status_code sent = status_code resp
  /\ body sent = body resp.
Proof.
  unfold cors_send. simpl.
  assert (Hsimple : forall k v, simple_headers cors !! k = Some v ->
            (simple_headers cors ∪ response_headers resp) !! k = Some v).
  { intros k v Hk. by apply lookup_union_Some_l. }
  destruct (bool_decide (is_Some (request_headers !! "cookie"))); simpl.
  - unfold allow_explicit_origin.
    destruct (_ !! VARY); simpl.
    + rewrite lookup_insert_ne by done. rewrite lookup_insert_eq.
      rewrite !lookup_insert_ne by done. split; [by right|].
      split; [by apply Hsimple|done].
    + rewrite lookup_insert_ne by done. rewrite lookup_insert_eq.
      rewrite !lookup_insert_ne by done. split; [by right|].
      split; [by apply Hsimple|done].
  - split; [left; by apply Hsimple|]. split; [by apply Hsimple|done].
Qed.

(** The answer of the middleware of [app] to a preflight. *)
Lemma preflight_response_headers (request_headers : gmap string string)
    (o m : string) :
  let resp := preflight_response cors request_headers o m in
  response_headers resp !! ACAO = Some o
  /\ response_headers resp !! ACAC = Some "true"
  /\ response_headers resp !! ACAM = Some (join_comma ALL_METHODS)
  /\ (forall wanted,
        request_headers !! "access-control-request-headers" = Some wanted ->
        response_headers resp !! ACAH = Some wanted)
  /\ status_code resp = (if bool_decide (m ∈ ALL_METHODS) then 200 else 400).
Proof.
  unfold preflight_response. simpl.
  change (cors_methods cors) with ALL_METHODS.
  destruct (bool_decide (m ∈ ALL_METHODS));
    destruct (request_headers !! "access-control-request-headers") as [wanted|];
    simpl; repeat split; try done;
    try (intros wanted' [= <-]; by rewrite lookup_insert_eq);
    by rewrite ?lookup_insert_ne by done.
Qed.

Lemma all_methods_listed (resp : response) (m : string) :
  response_headers resp !! ACAM = Some (join_comma ALL_METHODS) ->
  m ∈ ALL_METHODS -> allows_method resp m = true.
Proof.
  unfold allows_method. intros -> Hm.
  unfold ALL_METHODS in Hm. rewrite !elem_of_cons in Hm.
  destruct Hm as [->|[->|[->|[->|[->|[->|[->|Hm]]]]]]];
    [reflexivity ..|by apply elem_of_nil in Hm].
Qed.

(** C6, as the code has it: every request to one of the four routes that
    carries an [Origin] header, whatever its method, is answered with
    [Access-Control-Allow-Origin] set to [*] or to that origin and with
    [Access-Control-Allow-Credentials: true]; a preflight is answered with
    [Access-Control-Allow-Methods] listing the seven standard methods, with
    status 200 when the method asked for is one of them, and with
    [Access-Control-Allow-Headers] repeating the headers asked for. *)
Theorem cors_headers_for_origin {W} (w : W) (req : request) (op : operation)
    (o : string) :
  path req = url_of op ->
  headers req !! "origin" = Some o ->
  let resp := result (asgi_call app req) w in
  allows_origin req resp
  /\ allows_credentials resp
  /\ (is_preflight req = true ->
      (forall m, headers req !! "access-control-request-method" = Some m ->
                 m ∈ ALL_METHODS ->
                 allows_method resp m = true /\ status_code resp = 200)
      /\ allows_headers req resp).
Proof.
  intros _ Ho resp. subst resp. rewrite asgi_call_app.
  unfold allows_origin, allows_credentials, allows_headers, is_preflight,
    cors_call, result.
  rewrite Ho.
  assert (Hsimple : forall inner : response * W,
    let sent := fst (let '(r, w1) := inner in (cors_send cors (headers req) o r, w1)) in
    (response_headers sent !! ACAO = Some "*"
     \/ exists o', Some o = Some o' /\ response_headers sent !! ACAO = Some o')
    /\ response_headers sent !! ACAC = Some "true").
  { intros [r w1]. simpl.
    destruct (cors_send_headers (headers req) o r) as ([H|H] & Hc & _); eauto. }
  destruct (headers req !! "access-control-request-method") as [rm|] eqn:Hrm.
  - destruct (String.eqb (method req) "OPTIONS") eqn:Hopt.
    + simpl.
      destruct (preflight_response_headers (headers req) o rm)
        as (Hao & Hac & Ham & Hah & Hst).
      split; [right; eauto|]. split; [done|]. intros _. split.
      * intros m [= <-] Hm. split; [by apply all_methods_listed|].
        by rewrite Hst, bool_decide_eq_true_2.
      * intros wanted Hw. left. by apply Hah.
    + unfold_async. destruct (Hsimple (router_app (routes app) req w)) as [H1 H2].
      split; [exact H1|]. split; [exact H2|]. simpl. discriminate.
  - unfold_async. destruct (Hsimple (router_app (routes app) req w)) as [H1 H2].
    split; [exact H1|]. split; [exact H2|].
    rewrite andb_false_r. discriminate.
Qed.

Lemma cors_headers_for_origin_witness :
  let req := Request "OPTIONS" "/api/v1/analyze"
               (<["access-control-request-headers" := "authorization, x-trace"]>
                  (<["access-control-request-method" := "DELETE"]>
                     {["origin" := "https://app.example"]})) in
  let resp := result (asgi_call app req) tt in
  allows_origin req resp
  /\ allows_credentials resp
  /\ (is_preflight req = true ->
      (forall m, headers req !! "access-control-request-method" = Some m ->
                 m ∈ ALL_METHODS ->
                 allows_method resp m = true /\ status_code resp = 200)
      /\ allows_headers req resp).
Proof.
  intros req.
  apply (cors_headers_for_origin tt req AnalyzeTransactions "https://app.example");
    reflexivity.
Defined.

(** C6, as stated, fails: a request without [Origin] gets no CORS header at
    all, and a preflight that asks for a method outside the seven standard
    ones is refused with status 400 and a list that does not name it. *)
Lemma cors_headers_not_on_every_request :
  let plain := Request "GET" "/" ∅ in
  let propfind := Request "OPTIONS" "/health"
                    (<["access-control-request-method" := "PROPFIND"]>
                       {["origin" := "https://app.example"]}) in
  (path plain = url_of Root
   /\ ~ permissive_cors plain (result (asgi_call app plain) tt))
  /\ (path propfind = url_of HealthCheck
      /\ status_code (result (asgi_call app propfind) tt) = 400
      /\ ~ permissive_cors propfind (result (asgi_call app propfind) tt)).
Proof.
  intros plain propfind. split; split; try reflexivity.
  - intros ([H|(o & H & _)] & _); vm_compute in H; discriminate.
  - split; [reflexivity|]. intros (_ & _ & H).
    destruct (H eq_refl) as [Hm _].
    specialize (Hm "PROPFIND" eq_refl). vm_compute in Hm. discriminate.
Qed.

(** *** Requests outside the four operations *)

Section Errors.
Context {W : Type}.
Implicit Types (r : Route W) (req : request) (w : W).

Lemma select_no_match (routes : list (Route W)) req partial :
  (forall r, r ∈ routes -> path_regex_match (route_path r) (path req) = false) ->
  select routes req partial = partial.
Proof.
  induction routes as [|r0 routes IH]; simpl; intros Hno; [done|].
  unfold matches. rewrite (Hno r0) by constructor.
  apply IH. intros r Hr. apply Hno. by constructor.
Qed.

Lemma no_route_matches (routes : list (Route W)) req :
  (forall r, r ∈ routes -> path_regex_match (route_path r) (path req) = false) ->
  existsb (fun r => if matches r req is NONE then false else true) routes = false.
Proof.
  induction routes as [|r0 routes IH]; simpl; intros Hno; [done|].
  unfold matches at 1. rewrite (Hno r0) by constructor. simpl.
  apply IH. intros r Hr. apply Hno. by constructor.
Qed.

Lemma names_route_false (p : string) :
  names_route p = false ->
  forall r, r ∈ routes (@app W) -> path_regex_match (route_path r) p = false.
Proof.
  unfold names_route.
  change served_paths with (map route_path (routes (@app W))).
  induction (routes (@app W)) as [|r0 routes IH]; simpl; intros H r Hr.
  - by apply elem_of_nil in Hr.
  - apply orb_false_iff in H as [H0 H]. apply elem_of_cons in Hr as [->|Hr]; auto.
Qed.

(** A path that names no route, with or without its trailing slash, is
    answered 404. *)
Lemma router_app_not_found req w :
  names_route (path req) = false ->
  names_route (slash_toggled (path req)) = false ->
  router_app (routes app) req w = (http_exception 404 "Not Found", w).
Proof.
  intros Hp Ht. unfold router_app.
  rewrite select_no_match by (by apply names_route_false).
  rewrite no_route_matches by (by apply names_route_false).
  by rewrite andb_false_r.
Qed.

(** The route the router picks when exactly one route has the path. *)
Lemma select_unique (pre post : list (Route W)) r req :
  forallb (fun r' => negb (path_regex_match (route_path r') (path req)))
          (pre ++ post) = true ->
  path_regex_match (route_path r) (path req) = true ->
  select (pre ++ r :: post) req None = Some r.
Proof.
  rewrite forallb_app, andb_true_iff, !forallb_forall. intros [Hpre Hpost] Hr.
  assert (Hskip : forall l : list (Route W),
            select (pre ++ l)%list req None = select l req None).
  { intros l. induction pre as [|r0 pre IH]; simpl; [done|].
    unfold matches.
    assert (path_regex_match (route_path r0) (path req) = false) as ->
      by (apply negb_true_iff, Hpre; by left).
    apply IH. intros x Hx. apply Hpre. by right. }
  rewrite Hskip. simpl. unfold matches at 1. rewrite Hr.
  destruct (bool_decide _); [done|].
  apply select_no_match. intros x Hx.
  apply negb_true_iff, Hpost. by apply list_elem_of_In.
Qed.

(** Another method than GET on the path of an operation is answered 405. *)
Lemma router_app_method_not_allowed req (op : operation) w :
  path req = url_of op -> method req <> "GET" ->
  router_app (routes app) req w = (http_exception 405 "Method Not Allowed", w).
Proof.
  destruct req as [m p h]. intros Hp Hm. simpl in Hp, Hm. subst p.
  assert (Hget : bool_decide (m ∈ ["GET"]) = false).
  { apply bool_decide_eq_false. rewrite list_elem_of_singleton. exact Hm. }
  unfold router_app.
  set (k := match op with
            | Root => 4 | HealthCheck => 5
            | AnalyzeTransactions => 6 | GetAnomalies => 7
            end%nat).
  set (r := {| route_path := url_of op; route_methods := ["GET"];
               route_endpoint := PathOperation (handler_of op) |} : Route W).
  assert (Hsel : select (routes app) {| method := m; path := url_of op; headers := h |}
                   None = Some r).
  { rewrite <- (take_drop k (routes app)).
    destruct op; apply (select_unique _ _ r); reflexivity. }
  rewrite Hsel. unfold handle. simpl. by rewrite Hget.
Qed.

Lemma handle_status r req w :
  status_code (result (handle r req) w) ∈ [200; 405].
Proof.
  unfold handle. destruct (bool_decide _).
  - destruct (route_endpoint r) as [h|p]; unfold_async;
      [destruct (h w)|]; simpl; rewrite !elem_of_cons; auto.
  - unfold_async. rewrite !elem_of_cons; auto.
Qed.

Lemma router_app_status (routes : list (Route W)) req w :
  status_code (result (router_app routes req) w) ∈ [200; 307; 404; 405].
Proof.
  unfold router_app. destruct (select routes req None) as [r|].
  - pose proof (handle_status r req w) as H.
    rewrite !elem_of_cons in *. intuition.
  - destruct (_ && _); unfold_async; rewrite !elem_of_cons; auto.
Qed.

Lemma asgi_call_status req w :
  status_code (result (asgi_call app req) w) ∈ [200; 307; 400; 404; 405].
Proof.
  rewrite asgi_call_app. unfold cors_call.
  pose proof (router_app_status (routes app) req w) as Hrouter.
  assert (Hsend : forall o,
    status_code (result (resp ← router_app (routes app) req;
                         mret (cors_send cors (headers req) o resp)) w)
      ∈ [200; 307; 400; 404; 405]).
  { intros o. unfold result, mbind, async_bind, mret, async_ret in *.
    destruct (router_app (routes app) req w) as [r w1]. unfold cors_send.
    cbn [fst status_code] in *. rewrite !elem_of_cons in *. intuition. }
  destruct (headers req !! "origin") as [o|];
    [|rewrite !elem_of_cons in *; intuition].
  destruct (headers req !! "access-control-request-method") as [m|]; [|apply Hsend].
  destruct (String.eqb (method req) "OPTIONS"); [|apply Hsend].
  destruct (preflight_response_headers (headers req) o m) as (_ & _ & _ & _ & Hst).
  unfold result, mret, async_ret. cbn [fst]. cbv zeta in Hst. rewrite Hst.
  destruct (bool_decide _); rewrite !elem_of_cons; auto.
Qed.
(** A preflight is answered by the middleware alone: 200, or 400 when the
    method asked for is not one of the seven. *)
Lemma preflight_status req w :
  is_preflight req = true ->
  status_code (result (asgi_call app req) w) ∈ [200; 400].
Proof.
  unfold is_preflight. rewrite !andb_true_iff, !bool_decide_eq_true.
  intros [[Hm [o Ho]] [m Hrm]].
  rewrite asgi_call_app. unfold cors_call. rewrite Ho, Hrm, Hm.
  destruct (preflight_response_headers (headers req) o m) as (_ & _ & _ & _ & Hst).
  unfold result, mret, async_ret. cbn [fst]. cbv zeta in Hst. rewrite Hst.
  destruct (bool_decide _); rewrite !elem_of_cons; auto.
Qed.
End Errors.

(** C8, as the code has it: for a request that is not a CORS preflight, a
    path that matches no route of the application (the four operations and
    the framework's schema and documentation pages), as given and with its
    trailing slash added or removed, is answered 404 Not Found; a method other
    than GET on the path of one of the four operations is answered 405 Method
    Not Allowed; and the status is one of 200, 307, 404, 405.  A preflight is
    answered 200 or 400.  No other status is produced. *)
Theorem unknown_requests_rejected {W} (w : W) (req : request) :
  let resp := result (asgi_call app req) w in
  (is_preflight req = false ->
   names_route (path req) = false ->
   names_route (slash_toggled (path req)) = false ->
   status_code resp = 404
   /\ body resp = JSONContent (JDict [("detail", JStr "Not Found")]))
  /\ (is_preflight req = false ->
      forall op, path req = url_of op -> method req <> "GET" ->
      status_code resp = 405
      /\ body resp = JSONContent (JDict [("detail", JStr "Method Not Allowed")]))
  /\ (is_preflight req = false -> status_code resp ∈ [200; 307; 404; 405])
  /\ (is_preflight req = true -> status_code resp ∈ [200; 400]).
Proof.
  intros resp. subst resp. split; [|split; [|split]].
  - intros Hpre Hp Ht.
    destruct (cors_call_status_body req w Hpre) as [-> ->].
    unfold result. by rewrite router_app_not_found.
  - intros Hpre op Hp Hm.
    destruct (cors_call_status_body req w Hpre) as [-> ->].
    unfold result. by rewrite (router_app_method_not_allowed req op).
  - intros Hpre. destruct (cors_call_status_body req w Hpre) as [-> _].
    apply router_app_status.
  - apply preflight_status.
Qed.

Lemma unknown_requests_rejected_witness :
  let nope := Request "GET" "/nope" {["origin" := "https://app.example"]} in
  let post := Request "POST" "/api/v1/anomalies" ∅ in
  (status_code (result (asgi_call app nope) tt) = 404
   /\ body (result (asgi_call app nope) tt)
      = JSONContent (JDict [("detail", JStr "Not Found")]))
  /\ (status_code (result (asgi_call app post) tt) = 405
      /\ body (result (asgi_call app post) tt)
         = JSONContent (JDict [("detail", JStr "Method Not Allowed")])).
Proof.
  intros nope post. split.
  - apply (proj1 (unknown_requests_rejected tt nope)); reflexivity.
  - apply (proj1 (proj2 (unknown_requests_rejected tt post)) eq_refl GetAnomalies);
      [reflexivity | discriminate].
Defined.

(** C8, as stated, fails: a path outside the four registered routes is not
    always answered 404 (the documentation page configured by
    [docs_url="/docs"] is served, a registered path with a trailing slash is
    redirected, a preflight is answered by the middleware), and an OPTIONS
    preflight on a registered route is not answered 405. *)
Lemma unregistered_path_not_always_404 :
  let docs := Request "GET" "/docs" ∅ in
  let slash := Request "GET" "/health/" ∅ in
  let preflight := Request "OPTIONS" "/health"
                     (<["access-control-request-method" := "GET"]>
                        {["origin" := "https://app.example"]}) in
  ((forall op, path docs <> url_of op)
   /\ status_code (result (asgi_call app docs) tt) = 200
   /\ body (result (asgi_call app docs) tt) = Generated SwaggerUi)
  /\ ((forall op, path slash <> url_of op)
      /\ status_code (result (asgi_call app slash) tt) = 307)
  /\ (path preflight = url_of HealthCheck
      /\ method preflight <> "GET"
      /\ status_code (result (asgi_call app preflight) tt) = 200).
Proof.
  intros docs slash preflight. repeat split; try (by intros []); discriminate.
Qed.

(** *** The other answers of the application *)

Section Answers.
Context {W : Type}.
Implicit Types (r : Route W) (req : request) (w : W).






Lemma some_route_matches (routes : list (Route W)) req :
  (exists r, In r routes /\ path_regex_match (route_path r) (path req) = true) ->
  existsb (fun r => if matches r req is NONE then false else true) routes = true.
Proof.
  intros (r & Hr & Hp). apply existsb_exists. exists r. split; [done|].
  unfold matches. rewrite Hp. by destruct (bool_decide _).
Qed.

Lemma names_route_true (p : string) :
  names_route p = true ->
  exists r, In r (routes (@app W)) /\ path_regex_match (route_path r) p = true.
Proof.
  unfold names_route.
  change served_paths with (map route_path (routes (@app W))).
  intros (pat & Hin & Hp)%existsb_exists.
  apply in_map_iff in Hin as (r & <- & Hr). eauto.
Qed.

(** A path that names no route, while the path with its trailing slash
    added or removed does, is redirected there. *)
Lemma router_app_redirect req w :
  names_route (path req) = false ->
  names_route (slash_toggled (path req)) = true ->
  router_app (routes app) req w = (RedirectResponse (slash_toggled (path req)), w).
Proof.
  intros Hp Ht. unfold router_app.
  rewrite select_no_match by (by apply names_route_false).
  assert (String.eqb (path req) "/" = false) as ->.
  { destruct (String.eqb_spec (path req) "/") as [E|]; [|done].
    rewrite E in Hp. discriminate. }
  rewrite some_route_matches; [done|].
  by apply names_route_true.
Qed.

(** GET and HEAD on the path of a generated page run that page. *)
Lemma router_app_page req w (url : string) (p : page) :
  (url, p) ∈ [("/openapi.json", OpenapiSchema); ("/docs", SwaggerUi);
              ("/docs/oauth2-redirect", SwaggerUiRedirect); ("/redoc", Redoc)] ->
  method req = "GET" \/ method req = "HEAD" ->
  path req = url ->
  router_app (routes app) req w = (Response 200 ∅ (Generated p), w).
Proof.
  destruct req as [m pth h]. simpl. rewrite !elem_of_cons, elem_of_nil.
  intros [E|[E|[E|[E|[]]]]] [-> | ->] ->; by inversion E.
Qed.
End Answers.

(** X1: the application serves the framework's schema and documentation
    pages declared by [docs_url="/docs"] and [redoc_url="/redoc"] (and the
    defaults [/openapi.json], [/docs/oauth2-redirect]): every GET or HEAD
    request on one of these paths is answered 200 with that page. *)
Theorem documentation_pages_served {W} (w : W) (req : request) (url : string)
    (p : page) :
  (url, p) ∈ [("/openapi.json", OpenapiSchema); ("/docs", SwaggerUi);
              ("/docs/oauth2-redirect", SwaggerUiRedirect); ("/redoc", Redoc)] ->
  method req = "GET" \/ method req = "HEAD" ->
  path req = url ->
  status_code (result (asgi_call app req) w) = 200
  /\ body (result (asgi_call app req) w) = Generated p.
Proof.
  intros Hin Hm Hp.
  assert (Hpre : is_preflight req = false).
  { unfold is_preflight. by destruct Hm as [-> | ->]. }
  destruct (cors_call_status_body req w Hpre) as [-> ->].
  unfold result. by rewrite (router_app_page req w url p Hin Hm Hp).
Qed.

Lemma documentation_pages_served_witness :
  let req := Request "HEAD" "/redoc" {["origin" := "https://app.example"]} in
  status_code (result (asgi_call app req) tt) = 200
  /\ body (result (asgi_call app req) tt) = Generated Redoc.
Proof.
  intros req. apply (documentation_pages_served tt req "/redoc" Redoc).
  - rewrite !elem_of_cons. auto.
  - by right.
  - reflexivity.
Defined.

(** X2: every GET request on [/api/v1/analyze] is answered 200 with exactly
    the placeholder [analyze_transactions] returns: its message, the status
    "not implemented" and the list of features. *)
Theorem analyze_response {W} (w : W) (req : request) :
  method req = "GET" -> path req = "/api/v1/analyze" ->
  status_code (result (asgi_call app req) w) = 200
  /\ body (result (asgi_call app req) w)
     = JSONContent
         (JDict [("message", JStr "Transaction analysis endpoint");
                 ("status", JStr "not implemented");
                 ("features", JList [JStr "Anomaly detection";
                                     JStr "Risk scoring";
                                     JStr "Whale identification";
                                     JStr "Pattern recognition"])]).
Proof. intros Hm Hp. apply (operation_response req AnalyzeTransactions w Hm Hp). Qed.

Lemma analyze_response_witness :
  let req := Request "GET" "/api/v1/analyze" {["accept" := "*/*"]} in
  status_code (result (asgi_call app req) tt) = 200
  /\ body (result (asgi_call app req) tt)
     = JSONContent
         (JDict [("message", JStr "Transaction analysis endpoint");
                 ("status", JStr "not implemented");
                 ("features", JList [JStr "Anomaly detection";
                                     JStr "Risk scoring";
                                     JStr "Whale identification";
                                     JStr "Pattern recognition"])]).
Proof. intros req. apply (analyze_response tt req); reflexivity. Defined.

(** X3: every GET request on [/api/v1/anomalies] is answered 200 with
    exactly [{"anomalies": [], "total": 0, "message": "No anomalies
    detected"}], the keys in this order. *)
Theorem anomalies_response {W} (w : W) (req : request) :
  method req = "GET" -> path req = "/api/v1/anomalies" ->
  status_code (result (asgi_call app req) w) = 200
  /\ body (result (asgi_call app req) w)
     = JSONContent (JDict [("anomalies", JList []);
                           ("total", JInt 0);
                           ("message", JStr "No anomalies detected")]).
Proof. intros Hm Hp. apply (operation_response req GetAnomalies w Hm Hp). Qed.

Lemma anomalies_response_witness :
  let req := Request "GET" "/api/v1/anomalies" ∅ in
  status_code (result (asgi_call app req) tt) = 200
  /\ body (result (asgi_call app req) tt)
     = JSONContent (JDict [("anomalies", JList []);
                           ("total", JInt 0);
                           ("message", JStr "No anomalies detected")]).
Proof. intros req. apply (anomalies_response tt req); reflexivity. Defined.

(** X4: a request, not a preflight, whose path matches no route while the
    path with its trailing slash added or removed does, is answered 307 with
    a redirection to that path, whatever its method: [/health/] goes to
    [/health], [/docs/] to [/docs]. *)
Theorem trailing_slash_redirected {W} (w : W) (req : request) :
  is_preflight req = false ->
  names_route (path req) = false ->
  names_route (slash_toggled (path req)) = true ->
  status_code (result (asgi_call app req) w) = 307
  /\ body (result (asgi_call app req) w) = RedirectTo (slash_toggled (path req)).
Proof.
  intros Hpre Hp Ht.
  destruct (cors_call_status_body req w Hpre) as [-> ->].
  unfold result. by rewrite (router_app_redirect req w Hp Ht).
Qed.

Lemma trailing_slash_redirected_witness :
  let req := Request "POST" "/api/v1/anomalies/" ∅ in
  status_code (result (asgi_call app req) tt) = 307
  /\ body (result (asgi_call app req) tt) = RedirectTo "/api/v1/anomalies".
Proof.
  intros req. apply (trailing_slash_redirected tt req); reflexivity.
Defined.









(** *** Start-up: the guard and the text of [PORT] *)

Lemma append_cons (c : ascii) (s t : string) :
  (String c s ++ t)%string = String c (s ++ t)%string.
Proof. reflexivity. Qed.

Lemma lstrip_by_spaces (ws t : string) :
  spaces_only ws = true ->
  lstrip_by is_int_space (ws ++ t) = lstrip_by is_int_space t.
Proof.
  induction ws as [|c ws IH]; [done|].
  cbn [spaces_only]. intros [Hc Hws]%andb_true_iff.
  rewrite append_cons. cbn [lstrip_by]. rewrite Hc. by apply IH.
Qed.

Lemma rstrip_by_spaces (ws : string) :
  spaces_only ws = true -> rstrip_by is_int_space ws = "".
Proof.
  induction ws as [|c ws IH]; [done|].
  cbn [spaces_only rstrip_by]. intros [Hc Hws]%andb_true_iff.
  by rewrite (IH Hws), Hc.
Qed.

Lemma rstrip_by_app_spaces (t ws : string) :
  spaces_only ws = true ->
  rstrip_by is_int_space (t ++ ws) = rstrip_by is_int_space t.
Proof.
  intros Hws. induction t as [|c t IH].
  - by apply rstrip_by_spaces.
  - rewrite append_cons. cbn [rstrip_by]. by rewrite IH.
Qed.

(** White space around a text of digits is dropped. *)
Lemma int_strip_padded (before digits after : string) :
  spaces_only before = true -> digits_only digits = true ->
  spaces_only after = true ->
  int_strip (before ++ digits ++ after) = digits.
Proof.
  intros Hb Hd Ha. unfold int_strip. rewrite (lstrip_by_spaces _ _ Hb).
  destruct digits as [|c rest].
  - change ("" ++ after)%string with after.
    assert (lstrip_by is_int_space after = "") as ->; [|done].
    clear Hb. induction after as [|a after IH]; [done|].
    cbn [spaces_only] in Ha. apply andb_true_iff in Ha as [Hc Ha].
    cbn [lstrip_by]. rewrite Hc. by apply IH.
  - assert (Hc : is_int_space c = false).
    { cbn [digits_only] in Hd. apply andb_true_iff in Hd as [Hc _].
      apply bool_decide_eq_true in Hc. by apply is_digit_not_space. }
    rewrite append_cons. cbn [lstrip_by]. rewrite Hc, <- append_cons.
    rewrite (rstrip_by_app_spaces _ _ Ha). by apply rstrip_digits.
Qed.

Lemma int_of_ascii_padded (before after : string) (n : N) :
  spaces_only before = true -> spaces_only after = true ->
  int_of_ascii (before ++ str n ++ after) = Some (Z.of_N n).
Proof.
  intros Hb Ha. rewrite <- (int_of_ascii_str n).
  assert (Hd : digits_only (str n) = true) by (by apply digits_only_decimal_go).
  unfold int_of_ascii at 1 2.
  by rewrite (int_strip_padded _ _ _ Hb Hd Ha), (strip_digits _ Hd).
Qed.

Lemma has_digit_lstrip_by (space : ascii -> bool) (s : string) :
  has_digit s = false -> has_digit (lstrip_by space s) = false.
Proof.
  induction s as [|c s IH]; [done|]. cbn [has_digit lstrip_by].
  intros [Hc Hs]%orb_false_iff. destruct (space c); [by apply IH|].
  cbn [has_digit]. by rewrite Hc, Hs.
Qed.

Lemma has_digit_rstrip_by (space : ascii -> bool) (s : string) :
  has_digit s = false -> has_digit (rstrip_by space s) = false.
Proof.
  induction s as [|c s IH]; [done|]. cbn [has_digit rstrip_by].
  intros [Hc Hs]%orb_false_iff. specialize (IH Hs).
  destruct (rstrip_by space s) as [|c' kept].
  - destruct (space c); [done|]. cbn [has_digit]. by rewrite Hc.
  - cbn [has_digit] in *. by rewrite Hc, IH.
Qed.

(** A text without a digit does not convert. *)
Lemma int_of_ascii_no_digit (s : string) :
  has_digit s = false -> int_of_ascii s = None.
Proof.
  intros Hs. unfold int_of_ascii.
  assert (Ht : has_digit (int_strip s) = false)
    by (by apply has_digit_rstrip_by, has_digit_lstrip_by).
  destruct (int_strip s) as [|c rest]; [done|].
  cbn [has_digit] in Ht. apply orb_false_iff in Ht as [Hc Hrest].
  apply bool_decide_eq_false in Hc.
  assert (Hfirst : digits_value (String c rest) 0 false = None).
  { cbn [digits_value]. destruct (digit_value c) as [d|] eqn:E.
    - destruct Hc. by eexists.
    - by rewrite andb_false_r. }
  assert (Hnext : digits_value rest 0 false = None).
  { destruct rest as [|c' rest']; [done|].
    cbn [has_digit] in Hrest. apply orb_false_iff in Hrest as [Hc' _].
    apply bool_decide_eq_false in Hc'. cbn [digits_value].
    destruct (digit_value c') as [d|] eqn:E.
    - destruct Hc'. by eexists.
    - by rewrite andb_false_r. }
  destruct c as [[] [] [] [] [] [] [] []];
    by rewrite ?Hnext, ?Hfirst.
Qed.

(** X9: the start-up block reads nothing but the module name and [PORT].
    Loaded under any other name than [__main__] (as when the server imports
    [main:app]) it starts nothing and cannot fail, whatever the environment;
    run as [__main__], two environments that agree on [PORT] give the same
    outcome. *)
Theorem startup_reads_only_port (int_of_str : string -> option Z)
    (name : string) (environ1 environ2 : gmap string string) :
  (name = "__main__" -> environ1 !! "PORT" = environ2 !! "PORT") ->
  main int_of_str name environ1 = main int_of_str name environ2
  /\ (name <> "__main__" -> main int_of_str name environ1 = inr None).
Proof.
  intros Hport. unfold main, getenv.
  destruct (String.eqb_spec name "__main__") as [Hname|Hname].
  - rewrite (Hport Hname). split; [done|]. intros Hne. contradiction.
  - split; reflexivity.
Qed.

Lemma startup_reads_only_port_witness :
  main int_of_ascii "__main__" {["PORT" := "8123"; "HOME" := "/root"]}
  = main int_of_ascii "__main__" {["PORT" := "8123"; "DEBUG" := "1"]}
  /\ main int_of_ascii "main" {["PORT" := "not a number"]} = inr None.
Proof.
  split.
  - refine (proj1 (startup_reads_only_port int_of_ascii "__main__"
                     {["PORT" := "8123"; "HOME" := "/root"]}
                     {["PORT" := "8123"; "DEBUG" := "1"]} _)).
    intros _. reflexivity.
  - refine (proj2 (startup_reads_only_port int_of_ascii "main"
                     {["PORT" := "not a number"]} {["PORT" := "not a number"]}
                     _) _); [reflexivity | discriminate].
Defined.

(** X10: with [PORT] set to the decimal text of a port number [n], with or
    without white space around it (a trailing line feed, say), the start-up
    block hands port [n] to [uvicorn.run]. *)
Theorem startup_port_text (environ : gmap string string) (n : N)
    (before after : string) :
  (n < 65536)%N ->
  spaces_only before = true -> spaces_only after = true ->
  environ !! "PORT" = Some (before ++ str n ++ after) ->
  main int_of_ascii "__main__" environ
  = inr (Some {| run_app := "main:app"; host := "0.0.0.0";
                 port := Z.of_N n; reload := true |}).
Proof.
  intros _ Hb Ha Henv. unfold main, getenv, int. simpl.
  by rewrite Henv, (int_of_ascii_padded before after n Hb Ha).
Qed.

Lemma startup_port_text_witness :
  main int_of_ascii "__main__" {["PORT" := " 8080" ++ LF]}
  = inr (Some {| run_app := "main:app"; host := "0.0.0.0";
                 port := 8080; reload := true |}).
Proof.
  apply (startup_port_text {["PORT" := " 8080" ++ LF]} 8080 " " LF);
    reflexivity.
Defined.

(** X11: with [PORT] set to an ASCII text without any decimal digit (the
    empty text included: [PORT=] is not the same as [PORT] unset), the
    start-up block fails with [ValueError] instead of using 8002. *)
Theorem startup_port_without_digit (environ : gmap string string) (s : string) :
  environ !! "PORT" = Some s ->
  ascii_only s = true ->
  has_digit s = false ->
  main int_of_ascii "__main__" environ = inl ValueError.
Proof.
  intros Henv _ Hs. unfold main, getenv, int. simpl.
  by rewrite Henv, (int_of_ascii_no_digit s Hs).
Qed.

Lemma startup_port_without_digit_witness :
  main int_of_ascii "__main__" {["PORT" := ""]} = inl ValueError
  /\ main int_of_ascii "__main__" {["PORT" := "-"; "HOST" := "0.0.0.0"]}
     = inl ValueError.
Proof.
  split.
  - apply (startup_port_without_digit {["PORT" := ""]} ""); reflexivity.
  - apply (startup_port_without_digit {["PORT" := "-"; "HOST" := "0.0.0.0"]} "-");
      reflexivity.
Defined.
